(** * trilium-api: the search query builder and the note mapper

    A shallow embedding of [buildSearchQuery], [TriliumMapper] (mapper.ts)
    and of the mapping loop of [searchAndMap] (client.ts), with the
    properties of the specification checked against it.

    Conventions of the embedding:
    - a JavaScript object is the list of its own entries, in the order
      [Object.entries] yields them, which is the order of insertion for
      keys that are not array indices; keys are unique in a JavaScript
      object, which is the well-formedness condition [NoDup (keys o)]
      where a statement needs it;
    - a JavaScript number is an integer ([Z]) printed in decimal, which is
      how JavaScript prints integers of magnitude below 10^21;
    - code that may throw returns an [outcome]: [Ok v] or [Throw e];
    - callbacks supplied by the caller ([from], [transform], [computed]) are
      functions into [outcome]: they may throw, and they do not mutate
      their arguments. *)

From Stdlib Require Import String Ascii List ZArith Bool DecimalString.
Import ListNotations.
Open Scope string_scope.
Set Warnings "-register-all".

(* ================================================================== *)
(** ** JavaScript values, exceptions and strings *)

(** The JSON-like fragment of JavaScript values, with [VOpaque] for any
    other runtime value (a [Date], a function, ...), told apart by a tag. *)
Inductive JsValue : Type :=
| VUndefined
| VNull
| VBool (b : bool)
| VNum (n : Z)
| VStr (s : string)
| VArr (items : list JsValue)
| VObj (entries : list (string * JsValue))
| VOpaque (tag : nat).

(** [v === undefined] *)
Definition is_undefined (v : JsValue) : bool :=
  match v with VUndefined => true | _ => false end.

(** [v === undefined || v === null], the test behind [?.] and [??] *)
Definition is_nullish (v : JsValue) : bool :=
  match v with VUndefined | VNull => true | _ => false end.

(** Template-literal rendering of a number and of a boolean. *)
Definition num_text (n : Z) : string := NilZero.string_of_int (Z.to_int n).

Definition bool_text (b : bool) : string := if b then "true" else "false".

(** What a [throw] carries: an [Error] with its message, or any other
    value, kept as the text [String(err)] gives for it. *)
Inductive exn : Type :=
| JsError (message : string)
| JsThrown (text : string).

Inductive outcome (A : Type) : Type :=
| Ok (a : A)
| Throw (e : exn).
Arguments Ok {A} a.
Arguments Throw {A} e.

Definition bind {A B : Type} (m : outcome A) (k : A -> outcome B) : outcome B :=
  match m with
  | Ok a => k a
  | Throw e => Throw e
  end.

Notation "x <- m ;; k" := (bind m (fun x => k))
  (at level 61, m at next level, right associativity).

(** [xs.map(f)] where [f] may throw: the first throw aborts the map. *)
Section MapOutcome.
Context {A B : Type} (f : A -> outcome B).
Fixpoint map_outcome (xs : list A) : outcome (list B) :=
  match xs with
  | [] => Ok []
  | x :: rest =>
      y <- f x ;;
      ys <- map_outcome rest ;;
      Ok (y :: ys)
  end.
End MapOutcome.

(** [s.slice(n)] for [n >= 0] *)
Fixpoint slice_from (n : nat) (s : string) : string :=
  match n, s with
  | O, _ => s
  | S n', String _ rest => slice_from n' rest
  | S _, EmptyString => EmptyString
  end.

(** [s.startsWith(p)] *)
Definition startsWith (p s : string) : bool := String.prefix p s.

(** [s.includes(sub)] *)
Fixpoint includes (sub s : string) : bool :=
  String.prefix sub s ||
  match s with
  | EmptyString => false
  | String _ rest => includes sub rest
  end.

(** [sub] occurs in [s]: what [s.includes(sub)] decides. *)
Definition occurs_in (sub s : string) : Prop :=
  exists before after, s = before ++ sub ++ after.

(** [parts.join(sep)] *)
Definition join (sep : string) (parts : list string) : string :=
  String.concat sep parts.

(** [s.split('.')]: the pieces between the dots (never an empty list). *)
Fixpoint split_dot_acc (piece : string) (s : string) : list string :=
  match s with
  | EmptyString => [piece]
  | String c rest =>
      if Ascii.eqb c "."%char
      then piece :: split_dot_acc EmptyString rest
      else split_dot_acc (piece ++ String c EmptyString) rest
  end.

Definition split_dot (s : string) : list string := split_dot_acc EmptyString s.

(* ================================================================== *)
(** ** JavaScript objects as ordered entry lists *)

Definition obj (V : Type) : Type := list (string * V).

Definition keys {V : Type} (o : obj V) : list string := map fst o.

(** [o[k]], [None] when [k] is not an own key. *)
Fixpoint obj_get {V : Type} (o : obj V) (k : string) : option V :=
  match o with
  | [] => None
  | (k', v) :: rest => if String.eqb k' k then Some v else obj_get rest k
  end.

(** [k in o] *)
Definition has_key {V : Type} (o : obj V) (k : string) : bool :=
  existsb (fun kv => String.eqb (fst kv) k) o.

(** [o[k] = v]: an existing key keeps its place, a new key goes last. *)
Fixpoint obj_set {V : Type} (o : obj V) (k : string) (v : V) : obj V :=
  match o with
  | [] => [(k, v)]
  | (k', v') :: rest =>
      if String.eqb k' k then (k', v) :: rest else (k', v') :: obj_set rest k v
  end.

(** [Object.assign(target, source)] *)
Definition obj_assign {V : Type} (target source : obj V) : obj V :=
  fold_left (fun t kv => obj_set t (fst kv) (snd kv)) source target.

(* ================================================================== *)
(** ** The search query builder (mapper.ts, [buildSearchQuery]) *)

Inductive ComparisonOperator : Type :=
| OpEq | OpNe | OpLt | OpLe | OpGt | OpGe | OpStartsWith | OpEndsWith | OpContains.

(** The operator as it is written in a query. *)
Definition operator_text (op : ComparisonOperator) : string :=
  match op with
  | OpEq => "="
  | OpNe => "!="
  | OpLt => "<"
  | OpLe => "<="
  | OpGt => ">"
  | OpGe => ">="
  | OpStartsWith => "*="
  | OpEndsWith => "=*"
  | OpContains => "*=*"
  end.

(** [string | number | boolean] *)
Inductive Scalar : Type :=
| SStr (s : string)
| SNum (n : Z)
| SBool (b : bool).

(** [interface ConditionValue { value; operator? }] *)
Record ConditionValue : Type := {
  cv_value : Scalar;
  cv_operator : option ComparisonOperator
}.

(** [SearchValue | undefined], and [null], which the builder also tests. *)
Inductive SearchValue : Type :=
| SVUndefined
| SVNull
| SVStr (s : string)
| SVNum (n : Z)
| SVBool (b : bool)
| SVCond (c : ConditionValue).

(** [TriliumSearchHelpers]: the optional [AND], [OR] and [NOT] members
    ([None] when absent or [undefined]) and the entries under every other
    key, in the object's order. *)
Inductive TriliumSearchHelpers : Type :=
| Helpers (AND : option (list TriliumSearchHelpers))
          (OR : option (list TriliumSearchHelpers))
          (NOT : option TriliumSearchHelpers)
          (conditions : obj SearchValue).

Definition conditions_of (h : TriliumSearchHelpers) : obj SearchValue :=
  match h with Helpers _ _ _ c => c end.

(** [value.operator || dflt] *)
Definition operator_or (c : ConditionValue) (dflt : string) : string :=
  match cv_operator c with
  | Some op => operator_text op
  | None => dflt
  end.

(** [typeof v === 'string' ? `'${v}'` : v], as the template then prints it. *)
Definition scalar_text (v : Scalar) : string :=
  match v with
  | SStr s => "'" ++ s ++ "'"
  | SNum n => num_text n
  | SBool b => bool_text b
  end.

(** [val] of the source, for [value.value]. *)
Definition condition_val (c : ConditionValue) : string := scalar_text (cv_value c).

(** The three-way rendering shared by dotted labels, dotted relations and
    note properties: [lhs op val], [lhs = 'str'], [lhs = value]. *)
Definition render_with_eq (lhs : string) (value : SearchValue) : list string :=
  match value with
  | SVCond c => [lhs ++ " " ++ operator_or c "=" ++ " " ++ condition_val c]
  | SVStr s => [lhs ++ " = '" ++ s ++ "'"]
  | SVBool b => [lhs ++ " = " ++ bool_text b]
  | SVNum n => [lhs ++ " = " ++ num_text n]
  | SVUndefined | SVNull => []
  end.

(** One turn of the loop over [Object.entries(helpers)]: the strings it
    pushes on [parts] (none or one). *)
Definition entry_parts (key : string) (value : SearchValue) : list string :=
  match value with
  | SVUndefined | SVNull => []
  | _ =>
    if startsWith "#" key then
      let labelName := slice_from 1 key in
      if includes "." labelName then render_with_eq key value
      else
        match value with
        | SVBool true => ["#" ++ labelName]
        | SVBool false => ["#!" ++ labelName]
        | SVCond c =>
            ["#" ++ labelName ++ " " ++ operator_or c "=" ++ " " ++ condition_val c]
        | SVStr s => ["#" ++ labelName ++ " = '" ++ s ++ "'"]
        | SVNum n => ["#" ++ labelName ++ " = " ++ num_text n]
        | SVUndefined | SVNull => []
        end
    else if startsWith "~" key then
      let relationName := slice_from 1 key in
      if includes "." relationName then render_with_eq key value
      else
        match value with
        | SVCond c => [key ++ " " ++ operator_or c "*=*" ++ " " ++ condition_val c]
        | SVStr s => [key ++ " *=* '" ++ s ++ "'"]
        | _ => []
        end
    else
      let path := if startsWith "note." key then key else "note." ++ key in
      render_with_eq path value
  end.

Definition not_error : exn :=
  JsError "NOT operator requires a query object, not a simple value".

Definition wrap_in_AND (query : string) : string :=
  if includes " OR " query then "(" ++ query ++ ")" else query.

Definition wrap_in_OR (query : string) : string :=
  if includes " AND " query || includes " OR " query
  then "(" ++ query ++ ")" else query.

Fixpoint buildSearchQuery (helpers : TriliumSearchHelpers) : outcome string :=
  match helpers with
  | Helpers (Some hs) _ _ _ =>
      qs <- map_outcome
              (fun h => query <- buildSearchQuery h ;; Ok (wrap_in_AND query)) hs ;;
      Ok (join " AND " qs)
  | Helpers None (Some hs) _ _ =>
      qs <- map_outcome
              (fun h => query <- buildSearchQuery h ;; Ok (wrap_in_OR query)) hs ;;
      Ok (join " OR " qs)
  | Helpers None None (Some notValue) _ =>
      if negb (has_key (conditions_of notValue) "value")
      then query <- buildSearchQuery notValue ;; Ok ("not(" ++ query ++ ")")
      else Throw not_error
  | Helpers None None None conditions =>
      Ok (join " AND " (flat_map (fun kv => entry_parts (fst kv) (snd kv)) conditions))
  end.


(* ================================================================== *)
(** ** Notes (client.ts, [TriliumNote] and [TriliumAttribute]) *)

(** An attribute of a note: the members the mapper reads, and the other
    own properties of the record. *)
Module Attribute.
Record t : Type := {
  type : option string;
  name : option string;
  value : option string;
  others : obj JsValue
}.
End Attribute.

(** A note: the members the mapper and the client read by name, and the
    other own properties of the record ([type], [mime], the dates, ...). *)
Record TriliumNote : Type := {
  noteId : option string;
  title : option string;
  attributes : option (list Attribute.t);
  properties : obj JsValue
}.

(** An optional string member as a value. *)
Definition of_optional (s : option string) : JsValue :=
  match s with
  | Some s => VStr s
  | None => VUndefined
  end.

(** [`${s}`] for an optional string member. *)
Definition template_text (s : option string) : string :=
  match s with
  | Some s => s
  | None => "undefined"
  end.

Definition attribute_as_value (a : Attribute.t) : JsValue :=
  VObj (("type", of_optional (Attribute.type a))
        :: ("name", of_optional (Attribute.name a))
        :: ("value", of_optional (Attribute.value a))
        :: Attribute.others a).

(** [note as unknown]: the note seen as a plain object. *)
Definition note_as_value (note : TriliumNote) : JsValue :=
  VObj (("noteId", of_optional (noteId note))
        :: ("title", of_optional (title note))
        :: ("attributes",
            match attributes note with
            | Some attrs => VArr (map attribute_as_value attrs)
            | None => VUndefined
            end)
        :: properties note).

(** [items[key]] for the index written [key]. *)
Fixpoint index_get {V : Type} (items : list V) (i : nat) (key : string) : option V :=
  match items with
  | [] => None
  | x :: rest =>
      if String.eqb (num_text (Z.of_nat i)) key then Some x
      else index_get rest (S i) key
  end.

Definition or_undefined (v : option JsValue) : JsValue :=
  match v with
  | Some v => v
  | None => VUndefined
  end.

(** [obj[key]] on a value that is neither [undefined] nor [null]: own
    entries of an object, elements and [length] of an array, characters
    and [length] of a string. Inherited members are functions, which the
    fragment of values does not hold. *)
Definition js_get (o : JsValue) (key : string) : JsValue :=
  match o with
  | VObj entries => or_undefined (obj_get entries key)
  | VArr items =>
      if String.eqb key "length" then VNum (Z.of_nat (List.length items))
      else or_undefined (index_get items 0 key)
  | VStr s =>
      if String.eqb key "length" then VNum (Z.of_nat (String.length s))
      else or_undefined
             (index_get (map (fun c => VStr (String c EmptyString))
                             (list_ascii_of_string s)) 0 key)
  | _ => VUndefined
  end.

(** [obj?.[key]] *)
Definition optional_get (o : JsValue) (key : string) : JsValue :=
  if is_nullish o then VUndefined else js_get o key.

(* ================================================================== *)
(** ** The mapper (mapper.ts, [TriliumMapper]) *)

(** [Partial<T>], the object under construction. *)
Definition Partial : Type := obj JsValue.

(** [partial.key] as a computed function reads it. *)
Definition read (partial : Partial) (key : string) : JsValue :=
  or_undefined (obj_get partial key).

Definition ComputedFunction : Type := Partial -> TriliumNote -> outcome JsValue.

(** [from: string | ((note) => unknown)] *)
Inductive FromSource : Type :=
| FromPath (path : string)
| FromFunction (f : TriliumNote -> outcome JsValue).

(** The descriptor [{from, transform?, default?, required?}]; an absent
    [default] is [undefined], an absent [required] is [false]. *)
Record DirectMapping : Type := {
  from : FromSource;
  transform : option (JsValue -> TriliumNote -> outcome JsValue);
  default : JsValue;
  required : bool
}.

(** The descriptor [{computed, default?}]. *)
Record ComputedMapping : Type := {
  computed : ComputedFunction;
  computed_default : JsValue
}.

Inductive FieldMapping : Type :=
| Shorthand (path : string)
| Direct (mapping : DirectMapping)
| Computed (mapping : ComputedMapping).

(** [MappingConfig<T>]: every member is optional, [None] is [undefined]. *)
Definition MappingConfig : Type := obj (option FieldMapping).

(** The argument of [map] and, for each form, the type of its result. *)
Inductive NoteOrNotes : Type :=
| OneNote (note : TriliumNote)
| ManyNotes (notes : list TriliumNote).

Definition Mapped (noteOrNotes : NoteOrNotes) : Type :=
  match noteOrNotes with
  | OneNote _ => Partial
  | ManyNotes _ => list Partial
  end.

(** The methods of the class; [config] is the field [this.config]. *)
Module TriliumMapper.

(** [static merge(...configs)]: [Object.assign({}, ...configs)] *)
Definition merge (configs : list MappingConfig) : MappingConfig :=
  fold_left obj_assign configs [].

(** [note.attributes?.find((attr) => attr.type === kind && attr.name === name)?.value] *)
Definition find_attribute (note : TriliumNote) (kind name : string) : JsValue :=
  match attributes note with
  | None => VUndefined
  | Some attrs =>
      match find (fun attr =>
                    match Attribute.type attr, Attribute.name attr with
                    | Some t, Some n => String.eqb t kind && String.eqb n name
                    | _, _ => false
                    end) attrs with
      | Some attr => of_optional (Attribute.value attr)
      | None => VUndefined
      end
  end.

Definition extractValue (note : TriliumNote) (path : string) : JsValue :=
  if String.eqb path "" then VUndefined
  else if startsWith "#" path then find_attribute note "label" (slice_from 1 path)
  else if startsWith "~" path then find_attribute note "relation" (slice_from 1 path)
  else if startsWith "note." path then
    fold_left optional_get (split_dot (slice_from 5 path)) (note_as_value note)
  else VUndefined.

(** [typeof fieldMapping === 'string' ? { from: fieldMapping } : fieldMapping] *)
Definition shorthand_mapping (path : string) : DirectMapping :=
  {| from := FromPath path; transform := None;
     default := VUndefined; required := false |}.

(** [value === undefined && mapping.default !== undefined ? mapping.default : value] *)
Definition or_default (v dflt : JsValue) : JsValue :=
  if is_undefined v && negb (is_undefined dflt) then dflt else v.

(** Extraction, transform and default of one direct field: the value the
    first pass holds when it reaches the [required] test. *)
Definition resolve (note : TriliumNote) (mapping : DirectMapping) : outcome JsValue :=
  extracted <- match from mapping with
               | FromFunction f => f note
               | FromPath path => Ok (extractValue note path)
               end ;;
  transformed <- match transform mapping with
                 | Some t => t extracted note
                 | None => Ok extracted
                 end ;;
  Ok (or_default transformed (default mapping)).

Definition required_error (key : string) (note : TriliumNote) : exn :=
  JsError ("Required field '" ++ key ++ "' missing from note "
           ++ template_text (noteId note) ++ " (" ++ template_text (title note) ++ ")").

(** The body of the first loop for a direct field. *)
Definition direct_field (note : TriliumNote) (key : string) (mapping : DirectMapping)
  : outcome JsValue :=
  v <- resolve note mapping ;;
  if required mapping && is_undefined v then Throw (required_error key note)
  else Ok v.

(** First pass of [mapSingle]: the loop over [Object.entries(this.config)],
    from the state ([result], [computedFields]) it has reached. *)
Fixpoint first_pass (note : TriliumNote) (entries : MappingConfig)
    (result : Partial) (computedFields : list (string * ComputedMapping))
  : outcome (Partial * list (string * ComputedMapping)) :=
  match entries with
  | [] => Ok (result, computedFields)
  | (key, fieldMapping) :: rest =>
      match fieldMapping with
      | None => first_pass note rest result computedFields
      | Some (Shorthand "") => first_pass note rest result computedFields
      | Some (Computed mapping) =>
          first_pass note rest result (computedFields ++ [(key, mapping)])
      | Some (Shorthand path) =>
          v <- direct_field note key (shorthand_mapping path) ;;
          first_pass note rest (obj_set result key v) computedFields
      | Some (Direct mapping) =>
          v <- direct_field note key mapping ;;
          first_pass note rest (obj_set result key v) computedFields
      end
  end.

(** Second pass of [mapSingle]: the loop over [computedFields]. *)
Fixpoint second_pass (note : TriliumNote)
    (computedFields : list (string * ComputedMapping)) (result : Partial)
  : outcome Partial :=
  match computedFields with
  | [] => Ok result
  | (key, mapping) :: rest =>
      v <- computed mapping result note ;;
      second_pass note rest
        (obj_set result key (or_default v (computed_default mapping)))
  end.

Definition mapSingle (config : MappingConfig) (note : TriliumNote) : outcome Partial :=
  st <- first_pass note config [] [] ;;
  second_pass note (snd st) (fst st).

(** [Array.isArray(noteOrNotes) ? noteOrNotes.map((note) => this.mapSingle(note))
                                 : this.mapSingle(noteOrNotes)] *)
Definition map (config : MappingConfig) (noteOrNotes : NoteOrNotes)
  : outcome (Mapped noteOrNotes) :=
  match noteOrNotes with
  | ManyNotes notes => map_outcome (mapSingle config) notes
  | OneNote note => mapSingle config note
  end.

End TriliumMapper.

(** The entries the first pass sets aside: the computed fields, in the
    order of the configuration. *)
Definition computed_fields (config : MappingConfig) : list (string * ComputedMapping) :=
  flat_map (fun entry =>
              match snd entry with
              | Some (Computed mapping) => [(fst entry, mapping)]
              | _ => []
              end) config.

(** The descriptor the first pass resolves for an entry, if it is a
    direct field: not [undefined], not the empty string, not computed. *)
Definition direct_mapping (fieldMapping : option FieldMapping) : option DirectMapping :=
  match fieldMapping with
  | Some (Shorthand "") => None
  | Some (Shorthand path) => Some (TriliumMapper.shorthand_mapping path)
  | Some (Direct mapping) => Some mapping
  | Some (Computed _) => None
  | None => None
  end.

(* ================================================================== *)
(** ** The mapping loop of [searchAndMap] (client.ts) *)

Module Failure.
Record t : Type := {
  noteId : string;
  noteTitle : string;
  reason : string;
  note : TriliumNote
}.
End Failure.

Record SearchAndMapResult : Type := {
  data : list Partial;
  failures : list Failure.t
}.

(** [s ?? dflt] *)
Definition or_else (s : option string) (dflt : string) : string :=
  match s with
  | Some s => s
  | None => dflt
  end.

Definition failure (note : TriliumNote) (reason : string) : Failure.t :=
  {| Failure.noteId := or_else (noteId note) "unknown";
     Failure.noteTitle := or_else (title note) "Untitled";
     Failure.reason := reason;
     Failure.note := note |}.

(** [err instanceof Error ? err.message : String(err)] *)
Definition reason_of (err : exn) : string :=
  match err with
  | JsError message => message
  | JsThrown text => text
  end.

(** The three ways one turn of the loop ends. *)
Inductive Turn : Type :=
| PushMapped (mapped : Partial)
| PushUndefinedFailure (f : Failure.t)
| PushCaughtFailure (f : Failure.t).

(** The body of [for (const note of data.results)]; [const [mapped] = xs]
    binds the first element, [undefined] for an empty array. *)
Definition turn (mapper : MappingConfig) (note : TriliumNote) : Turn :=
  match TriliumMapper.map mapper (ManyNotes [note]) with
  | Ok xs =>
      match xs with
      | mapped :: _ => PushMapped mapped
      | [] => PushUndefinedFailure (failure note "Mapping returned undefined")
      end
  | Throw err => PushCaughtFailure (failure note (reason_of err))
  end.

Definition push (acc : SearchAndMapResult) (t : Turn) : SearchAndMapResult :=
  match t with
  | PushMapped mapped => {| data := data acc ++ [mapped]; failures := failures acc |}
  | PushUndefinedFailure f | PushCaughtFailure f =>
      {| data := data acc; failures := failures acc ++ [f] |}
  end.

(** The loop, from empty [mappedData] and [failures]. *)
Definition searchAndMap_loop (mapper : MappingConfig) (results : list TriliumNote)
  : SearchAndMapResult :=
  fold_left (fun acc note => push acc (turn mapper note)) results
            {| data := []; failures := [] |}.

(** The successes and the failures of a list of notes, each in the order
    of the notes. *)
Definition successes (mapper : MappingConfig) (results : list TriliumNote) : list Partial :=
  flat_map (fun note =>
              match TriliumMapper.mapSingle mapper note with
              | Ok mapped => [mapped]
              | Throw _ => []
              end) results.

Definition caught (mapper : MappingConfig) (results : list TriliumNote) : list Failure.t :=
  flat_map (fun note =>
              match TriliumMapper.mapSingle mapper note with
              | Ok _ => []
              | Throw err => [failure note (reason_of err)]
              end) results.
(* ================================================================== *)
(** ** Sample inputs, from the test suite and the README *)

(** A node with neither [AND], [OR] nor [NOT]. *)
Definition leaf (conditions : obj SearchValue) : TriliumSearchHelpers :=
  Helpers None None None conditions.

(** [{ value, operator }] *)
Definition cond (v : Scalar) (op : option ComparisonOperator) : SearchValue :=
  SVCond {| cv_value := v; cv_operator := op |}.

(** The "complex nested conditions" query of mapper.test.ts. *)
Definition blog_query : TriliumSearchHelpers :=
  Helpers (Some [ leaf [("#blog", SVBool true)];
                  leaf [("note.type", SVStr "text")];
                  Helpers None
                          (Some [ leaf [("#category", SVStr "tech")];
                                  leaf [("#category", SVStr "programming")] ])
                          None [];
                  Helpers None None (Some (leaf [("#draft", SVBool true)])) [] ])
          None None [].

(** [{ OR: [{ '#a': true, '#b': true }, { '#c': true }] }] *)
Definition or_query : TriliumSearchHelpers :=
  Helpers None
          (Some [ leaf [("#a", SVBool true); ("#b", SVBool true)];
                  leaf [("#c", SVBool true)] ])
          None [].

(** [{ NOT: { '#archived': true } }] and [{ NOT: { value: 'test' } }] *)
Definition not_archived : TriliumSearchHelpers :=
  Helpers None None (Some (leaf [("#archived", SVBool true)])) [].

Definition not_bare_value : TriliumSearchHelpers :=
  Helpers None None (Some (leaf [("value", SVStr "test")])) [].

(** [createMockNote()] of mapper.test.ts, and the note with a word count. *)
Definition mock_note : TriliumNote :=
  {| noteId := Some "test123";
     title := Some "Test Note";
     attributes := Some [];
     properties := [("type", VStr "text"); ("mime", VStr "text/html");
                    ("isProtected", VBool false)] |}.

Definition label (name value : string) : Attribute.t :=
  {| Attribute.type := Some "label"; Attribute.name := Some name;
     Attribute.value := Some value; Attribute.others := [] |}.

Definition counted_note : TriliumNote :=
  {| noteId := Some "test123";
     title := Some "Test Note";
     attributes := Some [label "wordCount" "1000"];
     properties := [] |}.

(** [{ from: path, required: true }] *)
Definition required_from (path : string) : option FieldMapping :=
  Some (Direct {| from := FromPath path; transform := None;
                  default := VUndefined; required := true |}).

(** [{ computed: f }] *)
Definition computed_by (f : ComputedFunction) : option FieldMapping :=
  Some (Computed {| computed := f; computed_default := VUndefined |}).

(** [{ slug: { from: '#slug', required: true },
       category: { from: '#category', required: true } }] *)
Definition two_required : MappingConfig :=
  [("slug", required_from "#slug"); ("category", required_from "#category")].

(** [{ first: { computed: () => 1 },
       wordCount: '#wordCount',
       second: { computed: (partial) => partial.first } }] *)
Definition first_mapping : ComputedMapping :=
  {| computed := fun _ _ => Ok (VNum 1); computed_default := VUndefined |}.

Definition second_mapping : ComputedMapping :=
  {| computed := fun partial _ => Ok (read partial "first");
     computed_default := VUndefined |}.

Definition chained_computed : MappingConfig :=
  [("first", Some (Computed first_mapping));
   ("wordCount", Some (Shorthand "#wordCount"));
   ("second", Some (Computed second_mapping))].

(** The base configuration of the merge test, and a configuration that
    overrides one of its fields. *)
Definition base_config : MappingConfig :=
  [("id", Some (Shorthand "note.noteId")); ("title", Some (Shorthand "note.title"))].

Definition override_config : MappingConfig :=
  [("title", required_from "#displayTitle"); ("slug", Some (Shorthand "#slug"))].

Definition relation (name value : string) : Attribute.t :=
  {| Attribute.type := Some "relation"; Attribute.name := Some name;
     Attribute.value := Some value; Attribute.others := [] |}.

(** [createMockNote({ attributes })] and [createMockNote({ title })] *)
Definition with_attributes (attrs : list Attribute.t) : TriliumNote :=
  {| noteId := noteId mock_note; title := title mock_note;
     attributes := Some attrs; properties := properties mock_note |}.

Definition titled (t : string) : TriliumNote :=
  {| noteId := noteId mock_note; title := Some t;
     attributes := attributes mock_note; properties := properties mock_note |}.

(** [{ from: path, default: dflt }] *)
Definition with_default (path : string) (dflt : JsValue) : option FieldMapping :=
  Some (Direct {| from := FromPath path; transform := None;
                  default := dflt; required := false |}).

(* ================================================================== *)
(** ** Induction on query nodes *)

(** Structural induction on a query node, through its [AND] and [OR]
    children and its [NOT] child. *)
Section HelpersInduction.
Variable P : TriliumSearchHelpers -> Prop.

Definition all_children (children : option (list TriliumSearchHelpers)) : Prop :=
  match children with
  | Some hs => Forall P hs
  | None => True
  end.

Definition the_child (child : option TriliumSearchHelpers) : Prop :=
  match child with
  | Some h => P h
  | None => True
  end.

Hypothesis step : forall a o n c,
  all_children a -> all_children o -> the_child n -> P (Helpers a o n c).

Fixpoint helpers_induction (h : TriliumSearchHelpers) : P h :=
  let all :=
    fix all (hs : list TriliumSearchHelpers) : Forall P hs :=
      match hs with
      | [] => Forall_nil P
      | x :: rest => Forall_cons x (helpers_induction x) (all rest)
      end in
  match h with
  | Helpers a o n c =>
      step a o n c
        (match a return all_children a with Some hs => all hs | None => I end)
        (match o return all_children o with Some hs => all hs | None => I end)
        (match n return the_child n with
         | Some x => helpers_induction x
         | None => I
         end)
  end.
End HelpersInduction.

(* ================================================================== *)
(** ** Properties of the string helpers *)

Lemma prefix_iff (p s : string) :
  String.prefix p s = true <-> exists rest, s = p ++ rest.
Proof.
  revert s. induction p as [|c p IH]; intros s.
  - split; [intros _; now exists s | now destruct s].
  - destruct s as [|d s]; simpl.
    + split; [discriminate | intros [rest E]; discriminate].
    + destruct (Ascii.ascii_dec c d) as [->|N].
      * rewrite IH. split; intros [rest E]; exists rest.
        -- now rewrite E.
        -- now injection E.
      * split; [discriminate | intros [rest E]; injection E; congruence].
Qed.

(** [includes sub s] holds exactly when [sub] occurs in [s]. *)
Lemma includes_iff (sub s : string) :
  includes sub s = true <-> occurs_in sub s.
Proof.
  unfold occurs_in. induction s as [|c s IH]; cbn [includes]; rewrite orb_true_iff.
  - split.
    + intros [H|H]; [|discriminate]. apply prefix_iff in H as [rest E].
      now exists "", rest.
    + intros [[|b before] [after E]]; [|discriminate].
      left. apply prefix_iff. now exists after.
  - rewrite IH. split.
    + intros [H|[before [after E]]].
      * apply prefix_iff in H as [rest E]. now exists "", rest.
      * exists (String c before), after. simpl. now rewrite E.
    + intros [[|b before] [after E]].
      * left. apply prefix_iff. now exists after.
      * right. simpl in E. injection E as _ E. now exists before, after.
Qed.

Lemma includes_false_iff (sub s : string) :
  includes sub s = false <-> ~ occurs_in sub s.
Proof.
  rewrite <- includes_iff. destruct (includes sub s); split; congruence.
Qed.

(* ================================================================== *)
(** ** Properties of [outcome] *)

(** Mapping a throwing function, then a pure one, in one traversal or two. *)
Lemma map_outcome_then {A B C : Type} (f : A -> outcome B) (g : B -> C) (xs : list A) :
  map_outcome (fun x => y <- f x ;; Ok (g y)) xs
  = (ys <- map_outcome f xs ;; Ok (map g ys)).
Proof.
  induction xs as [|x xs IH]; simpl; [reflexivity|].
  destruct (f x) as [y|e]; simpl; [|reflexivity].
  rewrite IH. now destruct (map_outcome f xs).
Qed.

Lemma map_outcome_Ok_iff {A B : Type} (f : A -> outcome B) (xs : list A) (ys : list B) :
  map_outcome f xs = Ok ys <-> Forall2 (fun x y => f x = Ok y) xs ys.
Proof.
  revert ys. induction xs as [|x xs IH]; intros ys; simpl.
  - split.
    + intros E. injection E as <-. constructor.
    + intros H. now inversion H.
  - split.
    + destruct (f x) as [y|e] eqn:Ef; simpl; [|discriminate].
      destruct (map_outcome f xs) as [ys'|e] eqn:Em; simpl; [|discriminate].
      intros E. injection E as <-. constructor; [assumption|]. now apply IH.
    + intros H. inversion H as [|x' y xs' ys' Hx Hrest]; subst.
      rewrite Hx. simpl. apply IH in Hrest. now rewrite Hrest.
Qed.

(** A map throws what its first throwing element throws. *)
Lemma map_outcome_Throw_iff {A B : Type} (f : A -> outcome B) (xs : list A) (e : exn) :
  map_outcome f xs = Throw e <->
  exists before x after,
    xs = (before ++ x :: after)%list /\
    Forall (fun x' => exists y, f x' = Ok y) before /\
    f x = Throw e.
Proof.
  induction xs as [|x xs IH]; simpl.
  - split; [discriminate|]. intros (before & x & after & E & _).
    now destruct before.
  - split.
    + destruct (f x) as [y|e'] eqn:Ef; simpl.
      * destruct (map_outcome f xs) as [ys|e'] eqn:Em; simpl; [discriminate|].
        intros E. injection E as ->.
        destruct (proj1 IH eq_refl) as (before & x' & after & -> & Hb & Hx).
        exists (x :: before), x', after. repeat split; trivial.
        constructor; [now exists y | assumption].
      * intros E. injection E as ->. exists [], x, xs. now repeat split.
    + intros (before & x' & after & E & Hb & Hx).
      destruct before as [|b before]; simpl in E; injection E as -> ->.
      * now rewrite Hx.
      * inversion Hb as [|? ? [y Hy] Hb']; subst. rewrite Hy. simpl.
        rewrite (proj2 IH); [reflexivity|]. now exists before, x', after.
Qed.

(* ================================================================== *)
(** ** The expectations of mapper.test.ts, on the embedding *)

Example number_and_boolean_texts :
  num_text 0 = "0" /\ num_text 1000 = "1000" /\ num_text (-12) = "-12"
  /\ bool_text true = "true" /\ bool_text false = "false".
Proof. repeat split. Qed.

Example test_label_conditions :
  buildSearchQuery (leaf [("#blog", SVBool true)]) = Ok "#blog"
  /\ buildSearchQuery (leaf [("#draft", SVBool false)]) = Ok "#!draft"
  /\ buildSearchQuery (leaf [("#status", SVStr "published")]) = Ok "#status = 'published'"
  /\ buildSearchQuery (leaf [("#priority", SVNum 5)]) = Ok "#priority = 5"
  /\ buildSearchQuery (leaf [("#wordCount", cond (SNum 1000) (Some OpGe))])
     = Ok "#wordCount >= 1000"
  /\ buildSearchQuery (leaf [("#tags", cond (SStr "javascript") (Some OpContains))])
     = Ok "#tags *=* 'javascript'"
  /\ buildSearchQuery (leaf [("#template.title", SVStr "Blog Post")])
     = Ok "#template.title = 'Blog Post'".
Proof. repeat split. Qed.

Example test_relation_conditions :
  buildSearchQuery (leaf [("~author", SVStr "John")]) = Ok "~author *=* 'John'"
  /\ buildSearchQuery (leaf [("~category", cond (SStr "Tech") (Some OpEq))])
     = Ok "~category = 'Tech'"
  /\ buildSearchQuery (leaf [("~author.title", SVStr "John Doe")])
     = Ok "~author.title = 'John Doe'".
Proof. repeat split. Qed.

Example test_note_property_conditions :
  buildSearchQuery (leaf [("note.type", SVStr "text")]) = Ok "note.type = 'text'"
  /\ buildSearchQuery (leaf [("type", SVStr "text")]) = Ok "note.type = 'text'"
  /\ buildSearchQuery (leaf [("isProtected", SVBool false)])
     = Ok "note.isProtected = false"
  /\ buildSearchQuery (leaf [("title", cond (SStr "Blog") (Some OpStartsWith))])
     = Ok "note.title *= 'Blog'".
Proof. repeat split. Qed.

Example test_logical_operators :
  buildSearchQuery
    (Helpers (Some [leaf [("#blog", SVBool true)]; leaf [("#published", SVBool true)]])
             None None [])
  = Ok "#blog AND #published"
  /\ buildSearchQuery
       (Helpers None
                (Some [leaf [("#status", SVStr "draft")];
                       leaf [("#status", SVStr "review")]])
                None [])
     = Ok "#status = 'draft' OR #status = 'review'"
  /\ buildSearchQuery not_archived = Ok "not(#archived)"
  /\ buildSearchQuery
       (Helpers (Some [leaf [("#blog", SVBool true)];
                       Helpers None
                               (Some [leaf [("#status", SVStr "published")];
                                      leaf [("#status", SVStr "featured")]])
                               None []])
                None None [])
     = Ok "#blog AND (#status = 'published' OR #status = 'featured')".
Proof. repeat split. Qed.

Example test_implicit_and_edge_cases :
  buildSearchQuery (leaf [("#blog", SVBool true); ("note.type", SVStr "text")])
  = Ok "#blog AND note.type = 'text'"
  /\ buildSearchQuery
       (leaf [("#blog", SVBool true); ("#draft", SVUndefined);
              ("note.type", SVStr "text")])
     = Ok "#blog AND note.type = 'text'"
  /\ buildSearchQuery (leaf []) = Ok ""
  /\ buildSearchQuery not_bare_value = Throw not_error.
Proof. repeat split. Qed.

Example test_basic_mapping :
  TriliumMapper.map [("id", Some (Shorthand "note.noteId"));
                     ("name", Some (Shorthand "note.title"))]
                    (OneNote mock_note)
  = Ok [("id", VStr "test123"); ("name", VStr "Test Note")]
  /\ TriliumMapper.map [("slug", Some (Shorthand "#slug"));
                        ("category", Some (Shorthand "#category"))]
                       (OneNote (with_attributes
                                   [label "slug" "my-blog-post"; label "category" "tech"]))
     = Ok [("slug", VStr "my-blog-post"); ("category", VStr "tech")]
  /\ TriliumMapper.map [("authorId", Some (Shorthand "~author"))]
                       (OneNote (with_attributes [relation "author" "author123"]))
     = Ok [("authorId", VStr "author123")].
Proof. repeat split. Qed.

Example test_default_values :
  TriliumMapper.map [("status", with_default "#status" (VStr "draft"))]
                    (OneNote mock_note)
  = Ok [("status", VStr "draft")]
  /\ TriliumMapper.map [("status", with_default "#status" (VStr "draft"))]
                       (OneNote (with_attributes [label "status" "published"]))
     = Ok [("status", VStr "published")].
Proof. repeat split. Qed.

Example test_required_fields :
  TriliumMapper.map [("slug", required_from "#slug")] (OneNote mock_note)
  = Throw (JsError "Required field 'slug' missing from note test123 (Test Note)")
  /\ TriliumMapper.map [("slug", required_from "#slug")]
                       (OneNote (with_attributes [label "slug" "my-post"]))
     = Ok [("slug", VStr "my-post")].
Proof. repeat split. Qed.

Example test_computed_fields :
  TriliumMapper.map
    [("fullTitle",
      computed_by (fun _ note =>
                     Ok (VStr ("[" ++ template_text (noteId note) ++ "] "
                               ++ template_text (title note)))))]
    (OneNote mock_note)
  = Ok [("fullTitle", VStr "[test123] Test Note")]
  /\ TriliumMapper.map
       [("summary",
         Some (Computed {| computed := fun _ _ => Ok VUndefined;
                           computed_default := VStr "No summary available" |}))]
       (OneNote mock_note)
     = Ok [("summary", VStr "No summary available")].
Proof. repeat split. Qed.

Example test_array_mapping :
  TriliumMapper.map [("title", Some (Shorthand "note.title"))]
                    (ManyNotes [titled "Note 1"; titled "Note 2"; titled "Note 3"])
  = Ok [ [("title", VStr "Note 1")]; [("title", VStr "Note 2")];
         [("title", VStr "Note 3")] ].
Proof. reflexivity. Qed.

Example test_merge_configurations :
  TriliumMapper.map
    (TriliumMapper.merge [base_config; [("slug", Some (Shorthand "#slug"))]])
    (OneNote {| noteId := Some "abc"; title := Some "Test";
                attributes := Some [label "slug" "test-slug"];
                properties := [] |})
  = Ok [("id", VStr "abc"); ("title", VStr "Test"); ("slug", VStr "test-slug")]
  /\ TriliumMapper.map
       (TriliumMapper.merge [ [("title", Some (Shorthand "note.noteId"))];
                              [("title", Some (Shorthand "note.title"))] ])
       (OneNote {| noteId := Some "abc"; title := Some "Correct Title";
                   attributes := Some []; properties := [] |})
     = Ok [("title", VStr "Correct Title")].
Proof. repeat split. Qed.

(* ================================================================== *)
(** ** Properties of the query builder *)

Lemma map_outcome_Throw_In {A B : Type} (f : A -> outcome B) (xs : list A) (e : exn) :
  map_outcome f xs = Throw e -> exists x, In x xs /\ f x = Throw e.
Proof.
  intros H. apply map_outcome_Throw_iff in H as (before & x & after & -> & _ & Hx).
  exists x. split; [|assumption]. apply in_or_app. right. now left.
Qed.

(** Every failure of the builder is the [NOT] failure. *)
Lemma buildSearchQuery_Throw (helpers : TriliumSearchHelpers) (e : exn) :
  buildSearchQuery helpers = Throw e -> e = not_error.
Proof.
  revert e. induction helpers as [a o n c Ha Ho Hn] using helpers_induction.
  intros e. destruct a as [hs|]; [|destruct o as [hs|]; [|destruct n as [h|]]];
    simpl in *.
  - rewrite map_outcome_then.
    destruct (map_outcome buildSearchQuery hs) as [qs|e'] eqn:E; simpl; [discriminate|].
    intros H. injection H as ->.
    apply map_outcome_Throw_In in E as (x & Hin & Hx).
    rewrite Forall_forall in Ha. now apply (Ha x Hin).
  - rewrite map_outcome_then.
    destruct (map_outcome buildSearchQuery hs) as [qs|e'] eqn:E; simpl; [discriminate|].
    intros H. injection H as ->.
    apply map_outcome_Throw_In in E as (x & Hin & Hx).
    rewrite Forall_forall in Ho. now apply (Ho x Hin).
  - destruct (has_key (conditions_of h) "value"); simpl.
    + intros H. now injection H.
    + destruct (buildSearchQuery h) as [q|e'] eqn:E; simpl; [discriminate|].
      intros H. injection H as ->. now apply Hn.
  - discriminate.
Qed.

Lemma startsWith_own_prefix (p rest : string) : startsWith p (p ++ rest) = true.
Proof. apply prefix_iff. now exists rest. Qed.

(** A key written [~name] is a relation key, and not a label key. *)
Lemma relation_key (name : string) :
  startsWith "#" ("~" ++ name) = false /\ startsWith "~" ("~" ++ name) = true
  /\ slice_from 1 ("~" ++ name) = name.
Proof.
  split; [|split].
  - destruct (startsWith "#" ("~" ++ name)) eqn:E; [|reflexivity].
    apply prefix_iff in E as [rest E]. discriminate.
  - apply (startsWith_own_prefix "~").
  - reflexivity.
Qed.

(** A built leaf map is its clauses, joined. *)
Lemma leaf_query (conditions : obj SearchValue) :
  buildSearchQuery (leaf conditions)
  = Ok (join " AND " (flat_map (fun kv => entry_parts (fst kv) (snd kv)) conditions)).
Proof. reflexivity. Qed.

(** C5. An [AND] node builds every child, parenthesizes exactly the child
    strings in which [" OR "] occurs and joins with [" AND "]; an [OR] node
    (with no [AND] array) builds every child, parenthesizes exactly the
    child strings in which [" AND "] or [" OR "] occurs and joins with
    [" OR "]. A child that fails makes the node fail. *)
Theorem AND_OR_join_and_parenthesize :
  (forall hs o n c,
      buildSearchQuery (Helpers (Some hs) o n c)
      = (qs <- map_outcome buildSearchQuery hs ;;
         Ok (join " AND " (map wrap_in_AND qs))))
  /\ (forall hs n c,
      buildSearchQuery (Helpers None (Some hs) n c)
      = (qs <- map_outcome buildSearchQuery hs ;;
         Ok (join " OR " (map wrap_in_OR qs))))
  /\ (forall query,
      (occurs_in " OR " query -> wrap_in_AND query = "(" ++ query ++ ")")
      /\ (~ occurs_in " OR " query -> wrap_in_AND query = query))
  /\ (forall query,
      (occurs_in " AND " query \/ occurs_in " OR " query ->
       wrap_in_OR query = "(" ++ query ++ ")")
      /\ (~ (occurs_in " AND " query \/ occurs_in " OR " query) ->
          wrap_in_OR query = query)).
Proof.
  repeat split.
  - intros. simpl. rewrite map_outcome_then.
    now destruct (map_outcome buildSearchQuery hs).
  - intros. simpl. rewrite map_outcome_then.
    now destruct (map_outcome buildSearchQuery hs).
  - intros H. apply includes_iff in H. unfold wrap_in_AND. now rewrite H.
  - intros H. apply includes_false_iff in H. unfold wrap_in_AND. now rewrite H.
  - intros H. unfold wrap_in_OR.
    replace (includes " AND " query || includes " OR " query) with true;
      [reflexivity|].
    symmetry. apply orb_true_iff. now rewrite !includes_iff.
  - intros H. unfold wrap_in_OR.
    replace (includes " AND " query || includes " OR " query) with false;
      [reflexivity|].
    symmetry. apply orb_false_iff. rewrite !includes_false_iff. tauto.
Qed.

Lemma AND_OR_join_and_parenthesize_witness :
  buildSearchQuery blog_query
  = Ok "#blog AND note.type = 'text' AND (#category = 'tech' OR #category = 'programming') AND not(#draft)"
  /\ buildSearchQuery or_query = Ok "(#a AND #b) OR #c"
  /\ wrap_in_AND "#a OR #b" = "(#a OR #b)".
Proof.
  destruct AND_OR_join_and_parenthesize as (HA & HO & HwA & _).
  split; [|split].
  - unfold blog_query. rewrite HA. reflexivity.
  - unfold or_query. rewrite HO. reflexivity.
  - apply (proj1 (HwA "#a OR #b")). now exists "#a", "#b".
Defined.



(** The operator a relation key falls back on. *)
Lemma relation_entry_parts (name : string) (value : SearchValue) :
  entry_parts ("~" ++ name) value
  = match value with
    | SVUndefined | SVNull => []
    | _ =>
      if includes "." name then render_with_eq ("~" ++ name) value
      else match value with
           | SVCond c =>
               [("~" ++ name) ++ " " ++ operator_or c "*=*" ++ " " ++ condition_val c]
           | SVStr s => [("~" ++ name) ++ " *=* '" ++ s ++ "'"]
           | _ => []
           end
    end.
Proof.
  destruct (relation_key name) as (Hl & Hr & Hs).
  unfold entry_parts. rewrite Hl, Hr, Hs. reflexivity.
Qed.

(** C2, as amended. A relation key [~name] with a plain string, or with a
    [{value, operator}] pair, renders with the key verbatim on the left;
    without an operator, a simple name falls back on [*=*] and a dotted
    name on [=]. *)
Theorem relation_default_operator (name : string) :
  let fallback := if includes "." name then "=" else "*=*" in
  (forall s,
      buildSearchQuery (leaf [("~" ++ name, SVStr s)])
      = Ok ("~" ++ name ++ " " ++ fallback ++ " '" ++ s ++ "'"))
  /\ (forall v,
      buildSearchQuery (leaf [("~" ++ name, cond v None)])
      = Ok ("~" ++ name ++ " " ++ fallback ++ " " ++ scalar_text v))
  /\ (forall v op,
      buildSearchQuery (leaf [("~" ++ name, cond v (Some op))])
      = Ok ("~" ++ name ++ " " ++ operator_text op ++ " " ++ scalar_text v)).
Proof.
  repeat split; intros; rewrite leaf_query; cbn [flat_map fst snd];
    rewrite relation_entry_parts, app_nil_r;
    destruct (includes "." name); reflexivity.
Qed.

(** C2, as stated, fails on a dotted relation name: the fallback is [=]. *)
Lemma dotted_relation_defaults_to_eq :
  buildSearchQuery (leaf [("~author.title", SVStr "John Doe")])
  = Ok "~author.title = 'John Doe'"
  /\ buildSearchQuery (leaf [("~author.title", SVStr "John Doe")])
     <> Ok "~author.title *=* 'John Doe'"
  /\ buildSearchQuery (leaf [("~author.title", cond (SStr "John Doe") None)])
     = Ok "~author.title = 'John Doe'".
Proof. repeat split. discriminate. Qed.

(** Every entry that holds a value yields one clause, but for a simple
    relation key that holds a plain number or boolean. *)
Lemma entry_parts_one_clause (key : string) (value : SearchValue) :
  value <> SVUndefined -> value <> SVNull ->
  ~ (startsWith "#" key = false /\ startsWith "~" key = true
     /\ includes "." (slice_from 1 key) = false
     /\ ((exists n, value = SVNum n) \/ (exists b, value = SVBool b))) ->
  exists clause, entry_parts key value = [clause].
Proof.
  intros Hu Hn Hr. unfold entry_parts.
  destruct (startsWith "#" key), (startsWith "~" key),
    (includes "." (slice_from 1 key));
    destruct value as [| |s|n|[|]|c]; try congruence; simpl; eauto;
    exfalso; apply Hr; repeat split; eauto.
Qed.

(** An entry that holds [undefined] or [null] yields no clause. *)
Lemma entry_parts_skipped (key : string) :
  entry_parts key SVUndefined = [] /\ entry_parts key SVNull = [].
Proof. split; reflexivity. Qed.

(** C6. The code drops an entry whose value is neither [undefined] nor
    [null]: a simple relation key with a plain number or boolean pushes no
    clause, where the dotted relation, label and note-property branches
    all render [key = value]. *)
Theorem simple_relation_number_dropped :
  entry_parts "~author" (SVNum 5) = []
  /\ buildSearchQuery (leaf [("~author", SVNum 5)]) = Ok ""
  /\ buildSearchQuery (leaf [("#blog", SVBool true); ("~author", SVBool true)])
     = Ok "#blog"
  /\ buildSearchQuery (leaf [("~author.id", SVNum 5)]) = Ok "~author.id = 5"
  /\ buildSearchQuery (leaf [("#priority", SVNum 5)]) = Ok "#priority = 5".
Proof. repeat split. Qed.

(* ================================================================== *)
(** ** Properties of objects *)

Lemma obj_get_set_same {V : Type} (o : obj V) (k : string) (v : V) :
  obj_get (obj_set o k v) k = Some v.
Proof.
  induction o as [|[k' v'] o IH]; simpl.
  - now rewrite String.eqb_refl.
  - destruct (String.eqb k' k) eqn:E; simpl; rewrite E; [reflexivity | exact IH].
Qed.

Lemma obj_get_set_other {V : Type} (o : obj V) (k k' : string) (v : V) :
  k <> k' -> obj_get (obj_set o k v) k' = obj_get o k'.
Proof.
  intros N. induction o as [|[k0 v0] o IH]; simpl.
  - apply String.eqb_neq in N. now rewrite N.
  - destruct (String.eqb k0 k) eqn:E; simpl.
    + apply String.eqb_eq in E. subst k0.
      apply String.eqb_neq in N. now rewrite N.
    + now rewrite IH.
Qed.

Lemma keys_obj_set {V : Type} (o : obj V) (k k' : string) (v : V) :
  In k' (keys (obj_set o k v)) <-> k' = k \/ In k' (keys o).
Proof.
  induction o as [|[k0 v0] o IH]; simpl.
  - intuition congruence.
  - destruct (String.eqb k0 k) eqn:E; simpl.
    + apply String.eqb_eq in E. subst k0. intuition congruence.
    + rewrite IH. intuition congruence.
Qed.

Lemma NoDup_obj_set {V : Type} (o : obj V) (k : string) (v : V) :
  NoDup (keys o) -> NoDup (keys (obj_set o k v)).
Proof.
  induction o as [|[k0 v0] o IH]; simpl; intros H.
  - constructor; [intros [] | constructor].
  - inversion H as [|? ? Hnotin Hrest]; subst.
    destruct (String.eqb k0 k) eqn:E; simpl.
    + now constructor.
    + constructor; [|now apply IH].
      fold (keys (obj_set o k v)). rewrite keys_obj_set.
      apply String.eqb_neq in E. intuition congruence.
Qed.

Lemma obj_get_None {V : Type} (o : obj V) (k : string) :
  obj_get o k = None <-> ~ In k (keys o).
Proof.
  induction o as [|[k0 v0] o IH]; simpl.
  - intuition.
  - destruct (String.eqb k0 k) eqn:E.
    + apply String.eqb_eq in E. split; [discriminate | intuition].
    + apply String.eqb_neq in E. rewrite IH. intuition.
Qed.

Lemma obj_get_Some_key {V : Type} (o : obj V) (k : string) (v : V) :
  obj_get o k = Some v -> In k (keys o).
Proof.
  intros H. destruct (in_dec string_dec k (keys o)) as [Hin|Hout]; [assumption|].
  apply obj_get_None in Hout. congruence.
Qed.

Lemma in_keys {V : Type} (o : obj V) (k : string) (v : V) :
  In (k, v) o -> In k (keys o).
Proof. intros H. apply (in_map fst) in H. exact H. Qed.

(** In a well-formed object an entry is what a read of its key gives. *)
Lemma obj_get_entry {V : Type} (o : obj V) (k : string) (v : V) :
  NoDup (keys o) -> In (k, v) o -> obj_get o k = Some v.
Proof.
  induction o as [|[k0 v0] o IH]; simpl; intros Hnd Hin; [contradiction|].
  inversion Hnd as [|? ? Hnotin Hrest]; subst.
  destruct Hin as [E|Hin].
  - injection E as -> ->. now rewrite String.eqb_refl.
  - destruct (String.eqb k0 k) eqn:E.
    + apply String.eqb_eq in E. subst k0. apply in_keys in Hin. contradiction.
    + now apply IH.
Qed.

Lemma obj_assign_untouched {V : Type} (source target : obj V) (k : string) :
  ~ In k (keys source) -> obj_get (obj_assign target source) k = obj_get target k.
Proof.
  unfold obj_assign. revert target.
  induction source as [|[k0 v0] source IH]; simpl; intros target H; [reflexivity|].
  rewrite IH by intuition. apply obj_get_set_other. intuition.
Qed.

Lemma obj_assign_written {V : Type} (source target : obj V) (k : string) :
  NoDup (keys source) -> In k (keys source) ->
  obj_get (obj_assign target source) k = obj_get source k.
Proof.
  unfold obj_assign. revert target.
  induction source as [|[k0 v0] source IH]; simpl; intros target Hnd Hin;
    [contradiction|].
  inversion Hnd as [|? ? Hnotin Hrest]; subst.
  destruct (String.eqb k0 k) eqn:E.
  - apply String.eqb_eq in E. subst k0.
    change (obj_get (obj_assign (obj_set target k v0) source) k = Some v0).
    rewrite obj_assign_untouched by assumption. apply obj_get_set_same.
  - apply String.eqb_neq in E. apply IH; intuition.
Qed.

Lemma NoDup_obj_assign {V : Type} (source target : obj V) :
  NoDup (keys target) -> NoDup (keys (obj_assign target source)).
Proof.
  unfold obj_assign. revert target.
  induction source as [|[k0 v0] source IH]; simpl; intros target H; [assumption|].
  apply IH. now apply NoDup_obj_set.
Qed.

Lemma keys_obj_assign {V : Type} (source target : obj V) (k : string) :
  In k (keys (obj_assign target source)) <-> In k (keys target) \/ In k (keys source).
Proof.
  unfold obj_assign. revert target.
  induction source as [|[k0 v0] source IH]; simpl; intros target.
  - tauto.
  - rewrite IH, keys_obj_set. intuition congruence.
Qed.

(* ================================================================== *)
(** ** Properties of [TriliumMapper.merge] *)

Lemma keys_merge_from (configs : list MappingConfig) (init : MappingConfig)
    (key : string) :
  In key (keys (fold_left obj_assign configs init)) <->
  In key (keys init) \/ exists c, In c configs /\ In key (keys c).
Proof.
  revert init. induction configs as [|c configs IH]; simpl; intros init.
  - split; [tauto|]. intros [H|[c [[] _]]]. exact H.
  - rewrite IH, keys_obj_assign. split.
    + intros [[H|H]|[c' [Hc' H]]]; eauto.
    + intros [H|[c' [[<-|Hc'] H]]]; eauto.
Qed.

Lemma merge_from_untouched (configs : list MappingConfig) (init : MappingConfig)
    (key : string) :
  (forall c, In c configs -> ~ In key (keys c)) ->
  obj_get (fold_left obj_assign configs init) key = obj_get init key.
Proof.
  revert init. induction configs as [|c configs IH]; simpl; intros init H;
    [reflexivity|].
  rewrite IH by (intros c' Hc'; apply H; now right).
  apply obj_assign_untouched. apply H. now left.
Qed.

Lemma NoDup_merge_from (configs : list MappingConfig) (init : MappingConfig) :
  NoDup (keys init) -> NoDup (keys (fold_left obj_assign configs init)).
Proof.
  revert init. induction configs as [|c configs IH]; simpl; intros init H;
    [assumption|].
  apply IH. now apply NoDup_obj_assign.
Qed.

(** C9. For a key of some configuration that no later configuration
    holds, the merged configuration holds that configuration's mapping for
    the key, whole; the keys of the result are the keys of the
    configurations, each once, and a key of no configuration reads as
    absent. *)
Theorem merge_last_config_wins :
  (forall (before after : list MappingConfig) (c : MappingConfig) (key : string),
      NoDup (keys c) ->
      In key (keys c) ->
      (forall c', In c' after -> ~ In key (keys c')) ->
      obj_get (TriliumMapper.merge (before ++ c :: after)) key = obj_get c key)
  /\ (forall (configs : list MappingConfig) (key : string),
      (forall c, In c configs -> ~ In key (keys c)) ->
      obj_get (TriliumMapper.merge configs) key = None)
  /\ (forall (configs : list MappingConfig) (key : string),
      In key (keys (TriliumMapper.merge configs)) <->
      exists c, In c configs /\ In key (keys c))
  /\ (forall configs : list MappingConfig, NoDup (keys (TriliumMapper.merge configs))).
Proof.
  split; [|split; [|split]].
  - intros before after c key Hnd Hin Hafter. unfold TriliumMapper.merge.
    rewrite fold_left_app. simpl.
    rewrite merge_from_untouched by assumption.
    now apply obj_assign_written.
  - intros configs key H. unfold TriliumMapper.merge. now rewrite merge_from_untouched.
  - intros configs key. unfold TriliumMapper.merge. rewrite keys_merge_from.
    simpl. tauto.
  - intros configs. apply NoDup_merge_from. constructor.
Qed.

Lemma merge_last_config_wins_witness :
  obj_get (TriliumMapper.merge [base_config; override_config]) "title"
  = Some (required_from "#displayTitle")
  /\ obj_get (TriliumMapper.merge [base_config; override_config]) "id"
     = Some (Some (Shorthand "note.noteId"))
  /\ obj_get (TriliumMapper.merge [base_config; override_config]) "author" = None.
Proof.
  destruct merge_last_config_wins as (Hlast & Hnone & _).
  split; [|split].
  - apply (Hlast [base_config] [] override_config "title").
    + repeat constructor; simpl; intuition discriminate.
    + simpl. tauto.
    + intros c' [].
  - apply (Hlast [] [override_config] base_config "id").
    + repeat constructor; simpl; intuition discriminate.
    + simpl. tauto.
    + intros c' [<-|[]]. simpl. intuition discriminate.
  - apply Hnone. intros c [<-|[<-|[]]]; simpl; intuition discriminate.
Defined.

(* ================================================================== *)
(** ** Properties of [map] and of the loop of [searchAndMap] *)

(** C8. The batch form succeeds exactly when every single-note mapping
    does, with the results of the single-note form, index by index: same
    length, same order, nothing dropped; it throws what the first
    throwing note throws. *)
Theorem map_elementwise (config : MappingConfig) (notes : list TriliumNote) :
  (forall results,
      TriliumMapper.map config (ManyNotes notes) = Ok results <->
      Forall2 (fun note mapped => TriliumMapper.map config (OneNote note) = Ok mapped)
              notes results)
  /\ (forall results,
      TriliumMapper.map config (ManyNotes notes) = Ok results ->
      List.length results = List.length notes
      /\ forall i note,
          nth_error notes i = Some note ->
          exists mapped,
            nth_error results i = Some mapped
            /\ TriliumMapper.map config (OneNote note) = Ok mapped)
  /\ (forall e,
      TriliumMapper.map config (ManyNotes notes) = Throw e <->
      exists before note after,
        notes = (before ++ note :: after)%list
        /\ Forall (fun n => exists mapped, TriliumMapper.map config (OneNote n) = Ok mapped)
                  before
        /\ TriliumMapper.map config (OneNote note) = Throw e).
Proof.
  simpl. split; [|split].
  - intros results. apply map_outcome_Ok_iff.
  - intros results H. apply map_outcome_Ok_iff in H. split.
    + symmetry. eapply Forall2_length, H.
    + induction H as [|note0 mapped0 notes results H0 H IH]; intros i note Hi.
      * now destruct i.
      * destruct i as [|i]; simpl in *.
        -- injection Hi as <-. now exists mapped0.
        -- now apply IH.
  - intros e. apply map_outcome_Throw_iff.
Qed.

Lemma map_elementwise_witness :
  List.length [ [("title", VStr "Test Note")]; [("title", VStr "Test Note")] ]
  = List.length [mock_note; counted_note]
  /\ forall i note,
      nth_error [mock_note; counted_note] i = Some note ->
      exists mapped,
        nth_error [ [("title", VStr "Test Note")]; [("title", VStr "Test Note")] ] i
        = Some mapped
        /\ TriliumMapper.map [("title", Some (Shorthand "note.title"))] (OneNote note)
           = Ok mapped.
Proof.
  apply (proj1 (proj2 (map_elementwise
                         [("title", Some (Shorthand "note.title"))]
                         [mock_note; counted_note]))).
  reflexivity.
Defined.

(** One turn of the loop, by the outcome of the single-note mapping. *)
Lemma turn_by_mapSingle (mapper : MappingConfig) (note : TriliumNote) :
  turn mapper note
  = match TriliumMapper.mapSingle mapper note with
    | Ok mapped => PushMapped mapped
    | Throw err => PushCaughtFailure (failure note (reason_of err))
    end.
Proof. unfold turn. simpl. now destruct (TriliumMapper.mapSingle mapper note). Qed.

Lemma searchAndMap_loop_from (mapper : MappingConfig) (results : list TriliumNote)
    (acc : SearchAndMapResult) :
  fold_left (fun acc note => push acc (turn mapper note)) results acc
  = {| data := data acc ++ successes mapper results;
       failures := failures acc ++ caught mapper results |}.
Proof.
  revert acc. induction results as [|note results IH]; intros acc; simpl.
  - rewrite !app_nil_r. now destruct acc.
  - rewrite IH, turn_by_mapSingle. unfold successes, caught. simpl.
    destruct (TriliumMapper.mapSingle mapper note); simpl; now rewrite <- app_assoc.
Qed.




(* ================================================================== *)
(** ** Properties of [mapSingle] *)

Lemma first_pass_app (note : TriliumNote) (entries rest : MappingConfig)
    (result : Partial) (computedFields : list (string * ComputedMapping)) :
  TriliumMapper.first_pass note (entries ++ rest)%list result computedFields
  = (st <- TriliumMapper.first_pass note entries result computedFields ;;
     TriliumMapper.first_pass note rest (fst st) (snd st)).
Proof.
  revert result computedFields.
  induction entries as [|[key fm] entries IH]; intros result computedFields; simpl;
    [reflexivity|].
  destruct fm as [[[|c path]|mapping|mapping]|]; try apply IH;
    match goal with
    | |- context [TriliumMapper.direct_field ?n ?k ?m] =>
        destruct (TriliumMapper.direct_field n k m); simpl
    end; try apply IH; reflexivity.
Qed.

(** The first pass on a direct field: resolve, test, store, go on. *)
Lemma first_pass_direct (note : TriliumNote) (key : string)
    (fm : option FieldMapping) (mapping : DirectMapping) (rest : MappingConfig)
    (result : Partial) (computedFields : list (string * ComputedMapping)) :
  direct_mapping fm = Some mapping ->
  TriliumMapper.first_pass note ((key, fm) :: rest) result computedFields
  = (v <- TriliumMapper.direct_field note key mapping ;;
     TriliumMapper.first_pass note rest (obj_set result key v) computedFields).
Proof.
  destruct fm as [[[|c path]|m|m]|]; simpl; intros E; try discriminate;
    now injection E as <-.
Qed.

(** The first pass on any other entry: nothing is stored. *)
Lemma first_pass_not_direct (note : TriliumNote) (key : string)
    (fm : option FieldMapping) (rest : MappingConfig)
    (result : Partial) (computedFields : list (string * ComputedMapping)) :
  direct_mapping fm = None ->
  TriliumMapper.first_pass note ((key, fm) :: rest) result computedFields
  = TriliumMapper.first_pass note rest result
      (computedFields ++ computed_fields [(key, fm)])%list.
Proof.
  destruct fm as [[[|c path]|m|m]|]; simpl; intros E; try discriminate;
    now rewrite ?app_nil_r.
Qed.

Lemma direct_mapping_dec (fm : option FieldMapping) :
  {mapping | direct_mapping fm = Some mapping} + {direct_mapping fm = None}.
Proof. destruct (direct_mapping fm) as [m|]; [left; now exists m | now right]. Qed.

Lemma computed_fields_cons (key : string) (fm : option FieldMapping)
    (rest : MappingConfig) :
  computed_fields ((key, fm) :: rest)
  = (computed_fields [(key, fm)] ++ computed_fields rest)%list.
Proof. unfold computed_fields. simpl. now rewrite app_nil_r. Qed.

Lemma computed_fields_direct (key : string) (fm : option FieldMapping)
    (mapping : DirectMapping) :
  direct_mapping fm = Some mapping -> computed_fields [(key, fm)] = [].
Proof. destruct fm as [[[|c path]|m|m]|]; simpl; intros E; now try discriminate. Qed.

(** The fields the first pass sets aside are the computed entries. *)
Lemma first_pass_computedFields (note : TriliumNote) (entries : MappingConfig)
    (result result' : Partial) (cfs cfs' : list (string * ComputedMapping)) :
  TriliumMapper.first_pass note entries result cfs = Ok (result', cfs') ->
  cfs' = (cfs ++ computed_fields entries)%list.
Proof.
  revert result cfs.
  induction entries as [|[key fm] entries IH]; intros result cfs H.
  - simpl in H. injection H as <- <-. simpl. now rewrite app_nil_r.
  - rewrite computed_fields_cons.
    destruct (direct_mapping_dec fm) as [[mapping E]|E].
    + rewrite (first_pass_direct _ _ _ _ _ _ _ E) in H.
      destruct (TriliumMapper.direct_field note key mapping) as [v|e]; simpl in H; [|discriminate].
      rewrite (computed_fields_direct _ _ _ E). simpl. now apply IH in H.
    + rewrite (first_pass_not_direct _ _ _ _ _ _ E) in H.
      apply IH in H. now rewrite H, app_assoc.
Qed.

(** What the first pass leaves under a key. *)
Lemma first_pass_result (note : TriliumNote) (entries : MappingConfig)
    (result result' : Partial) (cfs cfs' : list (string * ComputedMapping)) :
  NoDup (keys entries) ->
  TriliumMapper.first_pass note entries result cfs = Ok (result', cfs') ->
  forall k,
    (forall fm mapping,
        In (k, fm) entries -> direct_mapping fm = Some mapping ->
        exists v, TriliumMapper.direct_field note k mapping = Ok v /\ obj_get result' k = Some v)
    /\ ((forall fm, In (k, fm) entries -> direct_mapping fm = None) ->
        obj_get result' k = obj_get result k).
Proof.
  revert result cfs.
  induction entries as [|[key fm] entries IH]; intros result cfs Hnd H k.
  - simpl in H. injection H as <- <-. split; [intros ? ? []|reflexivity].
  - inversion Hnd as [|? ? Hnotin Hrest]; subst.
    assert (Hfresh : forall fm', ~ In (key, fm') entries).
    { intros fm' Hin. apply Hnotin. exact (in_keys _ _ _ Hin). }
    destruct (direct_mapping_dec fm) as [[mapping E]|E].
    + rewrite (first_pass_direct _ _ _ _ _ _ _ E) in H.
      destruct (TriliumMapper.direct_field note key mapping) as [v|e] eqn:Ev; simpl in H;
        [|discriminate].
      destruct (IH _ _ Hrest H k) as [IHd IHn]. split.
      * intros fm' mapping' [Hhere|Hin] E'.
        -- injection Hhere as <- <-. rewrite E in E'. injection E' as <-.
           exists v. split; [assumption|].
           rewrite IHn; [apply obj_get_set_same|].
           intros fm' Hin. now apply Hfresh in Hin.
        -- now apply (IHd fm').
      * intros Hnone. rewrite IHn.
        -- apply obj_get_set_other. intros <-.
           specialize (Hnone fm (or_introl eq_refl)). congruence.
        -- intros fm' Hin. apply Hnone. now right.
    + rewrite (first_pass_not_direct _ _ _ _ _ _ E) in H.
      destruct (IH _ _ Hrest H k) as [IHd IHn]. split.
      * intros fm' mapping' [Hhere|Hin] E'.
        -- injection Hhere as <- <-. congruence.
        -- now apply (IHd fm').
      * intros Hnone. apply IHn. intros fm' Hin. apply Hnone. now right.
Qed.

Lemma second_pass_app (note : TriliumNote)
    (earlier later : list (string * ComputedMapping)) (result : Partial) :
  TriliumMapper.second_pass note (earlier ++ later)%list result
  = (partial <- TriliumMapper.second_pass note earlier result ;; TriliumMapper.second_pass note later partial).
Proof.
  revert result. induction earlier as [|[key mapping] earlier IH]; intros result;
    simpl; [reflexivity|].
  destruct (computed mapping result note) as [v|e]; simpl; [apply IH|reflexivity].
Qed.

(** The second pass writes under the keys of the computed fields only. *)
Lemma second_pass_untouched (note : TriliumNote)
    (computedFields : list (string * ComputedMapping)) (result partial : Partial)
    (k : string) :
  TriliumMapper.second_pass note computedFields result = Ok partial ->
  ~ In k (keys computedFields) ->
  obj_get partial k = obj_get result k.
Proof.
  revert result.
  induction computedFields as [|[key mapping] cfs IH]; intros result H Hk; simpl in *.
  - now injection H as <-.
  - destruct (computed mapping result note) as [v|e]; simpl in H; [|discriminate].
    rewrite (IH _ H) by intuition. apply obj_get_set_other. intuition.
Qed.

Lemma in_computed_fields (config : MappingConfig) (k : string) (m : ComputedMapping) :
  In (k, m) (computed_fields config) <-> In (k, Some (Computed m)) config.
Proof.
  unfold computed_fields. rewrite in_flat_map. split.
  - intros [[key fm] [Hin Hm]]. simpl in Hm.
    destruct fm as [[path|d|c]|]; simpl in Hm; try contradiction.
    destruct Hm as [E|[]]. now injection E as <- <-.
  - intros Hin. exists (k, Some (Computed m)). split; [assumption|now left].
Qed.

Lemma NoDup_computed_fields (config : MappingConfig) :
  NoDup (keys config) -> NoDup (keys (computed_fields config)).
Proof.
  induction config as [|[key fm] config IH]; intros H; [constructor|].
  inversion H as [|? ? Hnotin Hrest]; subst.
  rewrite computed_fields_cons.
  destruct fm as [[path|d|c]|]; simpl; try now apply IH.
  constructor; [|now apply IH].
  intros Hin. apply Hnotin. apply in_map_iff in Hin as [[k m] [Ek Hin]].
  simpl in Ek. subst k. apply in_computed_fields in Hin. exact (in_keys _ _ _ Hin).
Qed.

Lemma NoDup_app_disjoint {A : Type} (xs ys : list A) (x : A) :
  NoDup (xs ++ ys)%list -> In x xs -> ~ In x ys.
Proof.
  induction xs as [|a xs IH]; simpl; intros Hnd Hin; [contradiction|].
  inversion Hnd as [|? ? Hnotin Hrest]; subst. destruct Hin as [->|Hin].
  - intros Hy. apply Hnotin. apply in_or_app. now right.
  - now apply IH.
Qed.

Lemma entry_unique {V : Type} (o : obj V) (k : string) (v v' : V) :
  NoDup (keys o) -> In (k, v) o -> In (k, v') o -> v = v'.
Proof.
  intros Hnd H H'. apply (obj_get_entry _ _ _ Hnd) in H, H'. congruence.
Qed.

(** In a well-formed configuration a computed key is not a direct key. *)
Lemma computed_key_not_direct (config : MappingConfig) (k : string)
    (m : ComputedMapping) (fm : option FieldMapping) :
  NoDup (keys config) ->
  In (k, m) (computed_fields config) -> In (k, fm) config ->
  direct_mapping fm = None.
Proof.
  intros Hnd Hc Hin. apply in_computed_fields in Hc.
  now rewrite (entry_unique _ _ _ _ Hnd Hin Hc).
Qed.

(** C4, as amended. When a direct field with [required] set resolves to
    [undefined] (after extraction, transform and default), the single-note
    mapping throws and returns no object; when moreover the first pass
    gets through the fields declared before it, the error is "Required
    field '<field>' missing from note <id> (<title>)" for that field. *)
Theorem required_field_missing_throws (note : TriliumNote)
    (before after : MappingConfig) (key : string) (mapping : DirectMapping) :
  required mapping = true ->
  TriliumMapper.resolve note mapping = Ok VUndefined ->
  (exists err,
      TriliumMapper.mapSingle (before ++ (key, Some (Direct mapping)) :: after)%list note
      = Throw err)
  /\ (forall st,
      TriliumMapper.first_pass note before [] [] = Ok st ->
      TriliumMapper.mapSingle (before ++ (key, Some (Direct mapping)) :: after)%list note
      = Throw (JsError ("Required field '" ++ key ++ "' missing from note "
                        ++ template_text (noteId note)
                        ++ " (" ++ template_text (title note) ++ ")"))).
Proof.
  intros Hreq Hres.
  assert (Hfield : TriliumMapper.direct_field note key mapping = Throw (TriliumMapper.required_error key note)).
  { unfold TriliumMapper.direct_field. rewrite Hres. simpl. now rewrite Hreq. }
  unfold TriliumMapper.mapSingle. rewrite first_pass_app.
  destruct (TriliumMapper.first_pass note before [] []) as [st|e]; simpl.
  - rewrite Hfield. simpl. split; [now eexists|]. intros st' _. reflexivity.
  - split; [now eexists|]. intros st' H. discriminate.
Qed.

Lemma required_field_missing_throws_witness :
  TriliumMapper.mapSingle two_required mock_note
  = Throw (JsError "Required field 'slug' missing from note test123 (Test Note)").
Proof.
  apply (proj2 (required_field_missing_throws mock_note []
                  [("category", required_from "#category")] "slug"
                  {| from := FromPath "#slug"; transform := None;
                     default := VUndefined; required := true |}
                  eq_refl eq_refl) ([], [])).
  reflexivity.
Defined.

(** C4, as stated, fails for a required field behind another one that is
    missing too: the error names the first. *)
Lemma second_missing_field_not_named :
  In ("category", required_from "#category") two_required
  /\ TriliumMapper.resolve mock_note {| from := FromPath "#category"; transform := None;
                          default := VUndefined; required := true |}
     = Ok VUndefined
  /\ TriliumMapper.mapSingle two_required mock_note
     = Throw (JsError "Required field 'slug' missing from note test123 (Test Note)")
  /\ TriliumMapper.mapSingle two_required mock_note
     <> Throw (JsError "Required field 'category' missing from note test123 (Test Note)").
Proof.
  split; [|split; [|split]].
  - right. now left.
  - reflexivity.
  - reflexivity.
  - discriminate.
Qed.

(** C1, as amended. When the first pass returns, it has resolved every
    direct field and set the computed fields aside, in the order of the
    configuration. The function of a computed field is then called on a
    partial object that holds the final value of every direct field,
    wherever it is declared, and the stored value of every computed field
    declared before it; the slots of the computed field itself and of
    those declared after it read as [undefined]. *)
Theorem computed_field_view (config : MappingConfig) (note : TriliumNote)
    (result partial : Partial)
    (earlier later : list (string * ComputedMapping))
    (key : string) (mapping : ComputedMapping) :
  NoDup (keys config) ->
  TriliumMapper.first_pass note config [] [] = Ok (result, (earlier ++ (key, mapping) :: later)%list) ->
  TriliumMapper.second_pass note earlier result = Ok partial ->
  computed_fields config = (earlier ++ (key, mapping) :: later)%list
  /\ TriliumMapper.mapSingle config note
     = (v <- computed mapping partial note ;;
        TriliumMapper.second_pass note later
          (obj_set partial key (TriliumMapper.or_default v (computed_default mapping))))
  /\ (forall k fm direct,
      In (k, fm) config -> direct_mapping fm = Some direct ->
      exists v, TriliumMapper.direct_field note k direct = Ok v /\ read partial k = v)
  /\ (forall before k m after,
      earlier = (before ++ (k, m) :: after)%list ->
      exists seen v,
        TriliumMapper.second_pass note before result = Ok seen
        /\ computed m seen note = Ok v
        /\ read partial k = TriliumMapper.or_default v (computed_default m))
  /\ (forall k m, In (k, m) ((key, mapping) :: later) -> read partial k = VUndefined).
Proof.
  intros Hnd H1 H2.
  assert (Hcfs : computed_fields config = (earlier ++ (key, mapping) :: later)%list).
  { now rewrite (first_pass_computedFields _ _ _ _ _ _ H1). }
  assert (Hndc : NoDup (keys earlier ++ keys ((key, mapping) :: later))%list).
  { unfold keys. rewrite <- map_app, <- Hcfs. now apply NoDup_computed_fields. }
  assert (Hin_cfs : forall k m, In (k, m) earlier \/ In (k, m) ((key, mapping) :: later) ->
                                In (k, m) (computed_fields config)).
  { intros k m H. rewrite Hcfs. apply in_or_app. exact H. }
  split; [exact Hcfs|]. split; [|split; [|split]].
  - unfold TriliumMapper.mapSingle. rewrite H1. simpl. rewrite second_pass_app, H2. reflexivity.
  - intros k fm direct Hin Hd.
    destruct (proj1 (first_pass_result _ _ _ _ _ _ Hnd H1 k) fm direct Hin Hd)
      as [v [Hv Hget]].
    exists v. split; [assumption|]. unfold read.
    rewrite (second_pass_untouched _ _ _ _ k H2), Hget; [reflexivity|].
    intros Hk. apply in_map_iff in Hk as [[k' m] [Ek Hk]]. simpl in Ek. subst k'.
    assert (Hnone := computed_key_not_direct _ _ _ _ Hnd
                       (Hin_cfs _ _ (or_introl Hk)) Hin).
    congruence.
  - intros before k m after ->. rewrite second_pass_app in H2.
    destruct (TriliumMapper.second_pass note before result) as [seen|e]; simpl in H2; [|discriminate].
    destruct (computed m seen note) as [v|e] eqn:Ev; simpl in H2; [|discriminate].
    exists seen, v. repeat split; try assumption. unfold read.
    rewrite (second_pass_untouched _ _ _ _ k H2), obj_get_set_same; [reflexivity|].
    apply NoDup_app_remove_r in Hndc. unfold keys in Hndc. rewrite map_app in Hndc.
    simpl in Hndc. apply NoDup_remove_2 in Hndc.
    intros Hk. apply Hndc. apply in_or_app. now right.
  - intros k m Hin. unfold read.
    rewrite (second_pass_untouched _ _ _ _ k H2).
    + rewrite (proj2 (first_pass_result _ _ _ _ _ _ Hnd H1 k)); [reflexivity|].
      intros fm Hfm.
      exact (computed_key_not_direct _ _ _ _ Hnd (Hin_cfs _ _ (or_intror Hin)) Hfm).
    + intros Hk. apply (NoDup_app_disjoint _ _ k Hndc Hk).
      exact (in_keys _ _ _ Hin).
Qed.

Lemma computed_field_view_witness :
  TriliumMapper.mapSingle chained_computed counted_note
  = (v <- computed second_mapping
            [("wordCount", VStr "1000"); ("first", VNum 1)] counted_note ;;
     TriliumMapper.second_pass counted_note []
       (obj_set [("wordCount", VStr "1000"); ("first", VNum 1)] "second"
                (TriliumMapper.or_default v (computed_default second_mapping)))).
Proof.
  refine (proj1 (proj2 (computed_field_view chained_computed counted_note
                          [("wordCount", VStr "1000")]
                          [("wordCount", VStr "1000"); ("first", VNum 1)]
                          [("first", first_mapping)] [] "second" second_mapping
                          _ eq_refl eq_refl))).
  repeat constructor; simpl; intuition discriminate.
Defined.

(** C1, as stated, fails for a computed field that reads the slot of a
    computed field declared before it: it sees that field's value. *)
Lemma later_computed_sees_earlier :
  TriliumMapper.second_pass counted_note [("first", first_mapping)] [("wordCount", VStr "1000")]
  = Ok [("wordCount", VStr "1000"); ("first", VNum 1)]
  /\ read [("wordCount", VStr "1000"); ("first", VNum 1)] "first" <> VUndefined
  /\ TriliumMapper.mapSingle chained_computed counted_note
     = Ok [("wordCount", VStr "1000"); ("first", VNum 1); ("second", VNum 1)].
Proof.
  split; [|split].
  - reflexivity.
  - discriminate.
  - reflexivity.
Qed.
